(** * GamepadEnums: the enumerations of the MPG gamepad library

    A shallow embedding of [src/GamepadEnums.h].  The header declares five C
    enumerations.  Each one is embedded as an inductive type with one
    constructor per enumerator (same names, same order), together with

    - its declaration list: the enumerators in source order, each with the
      initialiser the header writes for it, if any;
    - its value function, the integer constant the C compiler assigns.

    The C numbering rule (the first enumerator is 0 unless initialised, every
    further one is its predecessor plus one unless initialised) is written
    out once, in [enumerate], and every value function is checked against
    it. *)

From stdpp Require Import base decidable numbers list finite gmap.

#[local] Set Warnings "-clear-no-such-hyp".
Local Open Scope Z_scope.

(** ** The C numbering rule *)

Module CEnum.

(** An enumerator with the initialiser of its declaration, if it has one. *)
Definition decl (A : Type) : Type := list (A * option Z).

(** [enumerate next d] numbers the declaration [d], [next] being the value
    an enumerator without initialiser receives at the head of [d]. *)
Fixpoint enumerate {A : Type} (next : Z) (d : decl A) : list (A * Z) :=
  match d with
  | [] => []
  | (e, init) :: rest =>
      let v := default next init in (e, v) :: enumerate (v + 1) rest
  end.

(** The numbering a whole [typedef enum { ... }] receives. *)
Definition numbering {A : Type} (d : decl A) : list (A * Z) := enumerate 0 d.

(** Enumerators without any initialiser. *)
Definition plain {A : Type} (l : list A) : decl A := (λ e, (e, None)) <$> l.

(** [1U << k] on a 32-bit [unsigned int]. *)
Definition shl1U (k : Z) : Z := Z.shiftl 1 k mod 2 ^ 32.

End CEnum.

(** ** The enumerations *)

(** The available input modes. *)
Inductive InputMode : Set :=
  | INPUT_MODE_XINPUT
  | INPUT_MODE_SWITCH
  | INPUT_MODE_HID
  | INPUT_MODE_CONFIG.

(** The available stick emulation modes. *)
Inductive DpadMode : Set :=
  | DPAD_MODE_DIGITAL
  | DPAD_MODE_LEFT_ANALOG
  | DPAD_MODE_RIGHT_ANALOG.

(** The available SOCD cleaning methods. *)
Inductive SOCDMode : Set :=
  (* Legacy SOCD modes *)
  | SOCD_MODE_UP_PRIORITY
  | SOCD_MODE_NEUTRAL
  | SOCD_MODE_SECOND_INPUT_PRIORITY
  (* Comprehensive SOCD modes *)
  | SOCD_MODE_X_NEUTRAL_Y_NEUTRAL
  | SOCD_MODE_X_NEUTRAL_Y_DOWN
  | SOCD_MODE_X_NEUTRAL_Y_UP
  | SOCD_MODE_X_NEUTRAL_Y_LIP
  | SOCD_MODE_X_NEUTRAL_Y_FIP
  | SOCD_MODE_X_LEFT_Y_NEUTRAL
  | SOCD_MODE_X_LEFT_Y_DOWN
  | SOCD_MODE_X_LEFT_Y_UP
  | SOCD_MODE_X_LEFT_Y_LIP
  | SOCD_MODE_X_LEFT_Y_FIP
  | SOCD_MODE_X_RIGHT_Y_NEUTRAL
  | SOCD_MODE_X_RIGHT_Y_DOWN
  | SOCD_MODE_X_RIGHT_Y_UP
  | SOCD_MODE_X_RIGHT_Y_LIP
  | SOCD_MODE_X_RIGHT_Y_FIP
  | SOCD_MODE_X_LIP_Y_NEUTRAL
  | SOCD_MODE_X_LIP_Y_DOWN
  | SOCD_MODE_X_LIP_Y_UP
  | SOCD_MODE_X_LIP_Y_LIP
  | SOCD_MODE_X_LIP_Y_FIP
  | SOCD_MODE_X_FIP_Y_NEUTRAL
  | SOCD_MODE_X_FIP_Y_DOWN
  | SOCD_MODE_X_FIP_Y_UP
  | SOCD_MODE_X_FIP_Y_LIP
  | SOCD_MODE_X_FIP_Y_FIP.

(** Last direction state of the Second Input SOCD method. *)
Inductive DpadDirection : Set :=
  | DIRECTION_NONE
  | DIRECTION_UP
  | DIRECTION_DOWN
  | DIRECTION_LEFT
  | DIRECTION_RIGHT.

(** The available hotkey actions. *)
Inductive GamepadHotkey : Set :=
  | HOTKEY_NONE
  | HOTKEY_DPAD_DIGITAL
  | HOTKEY_DPAD_LEFT_ANALOG
  | HOTKEY_DPAD_RIGHT_ANALOG
  | HOTKEY_HOME_BUTTON
  | HOTKEY_CAPTURE_BUTTON
  | HOTKEY_SOCD_UP_PRIORITY
  | HOTKEY_SOCD_NEUTRAL
  | HOTKEY_SOCD_LAST_INPUT
  | HOTKEY_INVERT_X_AXIS
  | HOTKEY_INVERT_Y_AXIS.

#[global] Instance InputMode_eq_dec : EqDecision InputMode.
Proof. solve_decision. Defined.
#[global] Instance DpadMode_eq_dec : EqDecision DpadMode.
Proof. solve_decision. Defined.
#[global] Instance SOCDMode_eq_dec : EqDecision SOCDMode.
Proof. solve_decision. Defined.
#[global] Instance DpadDirection_eq_dec : EqDecision DpadDirection.
Proof. solve_decision. Defined.
#[global] Instance GamepadHotkey_eq_dec : EqDecision GamepadHotkey.
Proof. solve_decision. Defined.

(** ** Declarations in source order *)

Definition InputMode_decl : CEnum.decl InputMode :=
  [ (INPUT_MODE_XINPUT, None);
    (INPUT_MODE_SWITCH, None);
    (INPUT_MODE_HID, None);
    (INPUT_MODE_CONFIG, Some 255) ].

Definition DpadMode_all : list DpadMode :=
  [ DPAD_MODE_DIGITAL; DPAD_MODE_LEFT_ANALOG; DPAD_MODE_RIGHT_ANALOG ].

(** The three legacy enumerators, lines 32 to 34 of the header. *)
Definition SOCDMode_legacy : list SOCDMode :=
  [ SOCD_MODE_UP_PRIORITY; SOCD_MODE_NEUTRAL; SOCD_MODE_SECOND_INPUT_PRIORITY ].

(** The comprehensive enumerators, lines 37 to 61 of the header. *)
Definition SOCDMode_comprehensive : list SOCDMode :=
  [ SOCD_MODE_X_NEUTRAL_Y_NEUTRAL; SOCD_MODE_X_NEUTRAL_Y_DOWN;
    SOCD_MODE_X_NEUTRAL_Y_UP; SOCD_MODE_X_NEUTRAL_Y_LIP;
    SOCD_MODE_X_NEUTRAL_Y_FIP;
    SOCD_MODE_X_LEFT_Y_NEUTRAL; SOCD_MODE_X_LEFT_Y_DOWN;
    SOCD_MODE_X_LEFT_Y_UP; SOCD_MODE_X_LEFT_Y_LIP;
    SOCD_MODE_X_LEFT_Y_FIP;
    SOCD_MODE_X_RIGHT_Y_NEUTRAL; SOCD_MODE_X_RIGHT_Y_DOWN;
    SOCD_MODE_X_RIGHT_Y_UP; SOCD_MODE_X_RIGHT_Y_LIP;
    SOCD_MODE_X_RIGHT_Y_FIP;
    SOCD_MODE_X_LIP_Y_NEUTRAL; SOCD_MODE_X_LIP_Y_DOWN;
    SOCD_MODE_X_LIP_Y_UP; SOCD_MODE_X_LIP_Y_LIP;
    SOCD_MODE_X_LIP_Y_FIP;
    SOCD_MODE_X_FIP_Y_NEUTRAL; SOCD_MODE_X_FIP_Y_DOWN;
    SOCD_MODE_X_FIP_Y_UP; SOCD_MODE_X_FIP_Y_LIP;
    SOCD_MODE_X_FIP_Y_FIP ].

(** The whole enumeration: legacy modes first, comprehensive modes after. *)
Definition SOCDMode_all : list SOCDMode :=
  SOCDMode_legacy ++ SOCDMode_comprehensive.

Definition DpadDirection_all : list DpadDirection :=
  [ DIRECTION_NONE; DIRECTION_UP; DIRECTION_DOWN; DIRECTION_LEFT;
    DIRECTION_RIGHT ].

(** Every hotkey enumerator carries an initialiser. *)
Definition GamepadHotkey_decl : CEnum.decl GamepadHotkey :=
  [ (HOTKEY_NONE, Some 0);
    (HOTKEY_DPAD_DIGITAL, Some (CEnum.shl1U 0));
    (HOTKEY_DPAD_LEFT_ANALOG, Some (CEnum.shl1U 1));
    (HOTKEY_DPAD_RIGHT_ANALOG, Some (CEnum.shl1U 2));
    (HOTKEY_HOME_BUTTON, Some (CEnum.shl1U 3));
    (HOTKEY_CAPTURE_BUTTON, Some (CEnum.shl1U 4));
    (HOTKEY_SOCD_UP_PRIORITY, Some (CEnum.shl1U 5));
    (HOTKEY_SOCD_NEUTRAL, Some (CEnum.shl1U 6));
    (HOTKEY_SOCD_LAST_INPUT, Some (CEnum.shl1U 7));
    (HOTKEY_INVERT_X_AXIS, Some (CEnum.shl1U 8));
    (HOTKEY_INVERT_Y_AXIS, Some (CEnum.shl1U 9)) ].

Definition GamepadHotkey_all : list GamepadHotkey := GamepadHotkey_decl.*1.

(** ** Values *)

Definition InputMode_value (m : InputMode) : Z :=
  match m with
  | INPUT_MODE_XINPUT => 0
  | INPUT_MODE_SWITCH => 1
  | INPUT_MODE_HID => 2
  | INPUT_MODE_CONFIG => 255
  end.

Definition DpadMode_value (m : DpadMode) : Z :=
  match m with
  | DPAD_MODE_DIGITAL => 0
  | DPAD_MODE_LEFT_ANALOG => 1
  | DPAD_MODE_RIGHT_ANALOG => 2
  end.

Definition DpadDirection_value (d : DpadDirection) : Z :=
  match d with
  | DIRECTION_NONE => 0
  | DIRECTION_UP => 1
  | DIRECTION_DOWN => 2
  | DIRECTION_LEFT => 3
  | DIRECTION_RIGHT => 4
  end.

Definition SOCDMode_value (m : SOCDMode) : Z :=
  match m with
  | SOCD_MODE_UP_PRIORITY => 0
  | SOCD_MODE_NEUTRAL => 1
  | SOCD_MODE_SECOND_INPUT_PRIORITY => 2
  | SOCD_MODE_X_NEUTRAL_Y_NEUTRAL => 3
  | SOCD_MODE_X_NEUTRAL_Y_DOWN => 4
  | SOCD_MODE_X_NEUTRAL_Y_UP => 5
  | SOCD_MODE_X_NEUTRAL_Y_LIP => 6
  | SOCD_MODE_X_NEUTRAL_Y_FIP => 7
  | SOCD_MODE_X_LEFT_Y_NEUTRAL => 8
  | SOCD_MODE_X_LEFT_Y_DOWN => 9
  | SOCD_MODE_X_LEFT_Y_UP => 10
  | SOCD_MODE_X_LEFT_Y_LIP => 11
  | SOCD_MODE_X_LEFT_Y_FIP => 12
  | SOCD_MODE_X_RIGHT_Y_NEUTRAL => 13
  | SOCD_MODE_X_RIGHT_Y_DOWN => 14
  | SOCD_MODE_X_RIGHT_Y_UP => 15
  | SOCD_MODE_X_RIGHT_Y_LIP => 16
  | SOCD_MODE_X_RIGHT_Y_FIP => 17
  | SOCD_MODE_X_LIP_Y_NEUTRAL => 18
  | SOCD_MODE_X_LIP_Y_DOWN => 19
  | SOCD_MODE_X_LIP_Y_UP => 20
  | SOCD_MODE_X_LIP_Y_LIP => 21
  | SOCD_MODE_X_LIP_Y_FIP => 22
  | SOCD_MODE_X_FIP_Y_NEUTRAL => 23
  | SOCD_MODE_X_FIP_Y_DOWN => 24
  | SOCD_MODE_X_FIP_Y_UP => 25
  | SOCD_MODE_X_FIP_Y_LIP => 26
  | SOCD_MODE_X_FIP_Y_FIP => 27
  end.

Definition GamepadHotkey_value (h : GamepadHotkey) : Z :=
  match h with
  | HOTKEY_NONE => 0
  | HOTKEY_DPAD_DIGITAL => CEnum.shl1U 0
  | HOTKEY_DPAD_LEFT_ANALOG => CEnum.shl1U 1
  | HOTKEY_DPAD_RIGHT_ANALOG => CEnum.shl1U 2
  | HOTKEY_HOME_BUTTON => CEnum.shl1U 3
  | HOTKEY_CAPTURE_BUTTON => CEnum.shl1U 4
  | HOTKEY_SOCD_UP_PRIORITY => CEnum.shl1U 5
  | HOTKEY_SOCD_NEUTRAL => CEnum.shl1U 6
  | HOTKEY_SOCD_LAST_INPUT => CEnum.shl1U 7
  | HOTKEY_INVERT_X_AXIS => CEnum.shl1U 8
  | HOTKEY_INVERT_Y_AXIS => CEnum.shl1U 9
  end.

(** A value function agrees with the header when it assigns to the
    enumerators, in source order, the constants of the C numbering rule. *)
Definition numbered_by {A : Type} (d : CEnum.decl A) (value : A → Z) : Prop :=
  CEnum.numbering d = (λ e, (e, value e)) <$> d.*1.

(** The enumerator a stored integer denotes, if any: the first enumerator
    of the list carrying that constant. *)
Definition of_value {A : Type} (all : list A) (value : A → Z) (v : Z)
    : option A :=
  List.find (λ e, value e =? v) all.

Definition DpadMode_of_value : Z → option DpadMode :=
  of_value DpadMode_all DpadMode_value.
Definition SOCDMode_of_value : Z → option SOCDMode :=
  of_value SOCDMode_all SOCDMode_value.
Definition DpadDirection_of_value : Z → option DpadDirection :=
  of_value DpadDirection_all DpadDirection_value.

(** ** Enumerations as finite types *)

Local Ltac enum_finite :=
  first
    [ apply (bool_decide_unpack _); vm_compute; exact I
    | let x := fresh in
      intros x; apply (bool_decide_unpack _); destruct x; vm_compute; exact I ].

#[global, program] Instance DpadMode_finite : Finite DpadMode :=
  {| enum := DpadMode_all |}.
Next Obligation. enum_finite. Qed.
Next Obligation. enum_finite. Qed.

#[global, program] Instance SOCDMode_finite : Finite SOCDMode :=
  {| enum := SOCDMode_all |}.
Next Obligation. enum_finite. Qed.
Next Obligation. enum_finite. Qed.

#[global, program] Instance DpadDirection_finite : Finite DpadDirection :=
  {| enum := DpadDirection_all |}.
Next Obligation. enum_finite. Qed.
Next Obligation. enum_finite. Qed.

#[global, program] Instance GamepadHotkey_finite : Finite GamepadHotkey :=
  {| enum := GamepadHotkey_all |}.
Next Obligation. enum_finite. Qed.
Next Obligation. enum_finite. Qed.

(** ** Hotkey actions as bit flags *)

Module Hotkey.

(** The flags of an action set, composed with [|]. *)
Definition compose (s : gset GamepadHotkey) : Z :=
  set_fold (λ h acc, Z.lor acc (GamepadHotkey_value h)) 0 s.

(** [(v & h) != 0]: flag [h] is raised in [v]. *)
Definition raised (v : Z) (h : GamepadHotkey) : bool :=
  negb (Z.land v (GamepadHotkey_value h) =? 0).

(** The actions whose flag is raised in [v]. *)
Definition actions (v : Z) : gset GamepadHotkey :=
  list_to_set (filter (λ h, raised v h = true) GamepadHotkey_all).

(** The position of the single bit of a flag ([HOTKEY_NONE] has none). *)
Definition bit (h : GamepadHotkey) : option Z :=
  match h with
  | HOTKEY_NONE => None
  | HOTKEY_DPAD_DIGITAL => Some 0
  | HOTKEY_DPAD_LEFT_ANALOG => Some 1
  | HOTKEY_DPAD_RIGHT_ANALOG => Some 2
  | HOTKEY_HOME_BUTTON => Some 3
  | HOTKEY_CAPTURE_BUTTON => Some 4
  | HOTKEY_SOCD_UP_PRIORITY => Some 5
  | HOTKEY_SOCD_NEUTRAL => Some 6
  | HOTKEY_SOCD_LAST_INPUT => Some 7
  | HOTKEY_INVERT_X_AXIS => Some 8
  | HOTKEY_INVERT_Y_AXIS => Some 9
  end.

(** The ten enumerators other than [HOTKEY_NONE], in source order. *)
Definition nonzero : list GamepadHotkey :=
  filter (λ h, h ≠ HOTKEY_NONE) GamepadHotkey_all.

End Hotkey.

(** ** SOCD cleaning methods as per-axis policies *)

(** What an axis does when both of its directions are held.  The header
    abbreviates the policies in the comment of every [SOCDMode] enumerator:
    [N] neutral, [L]/[U] and [R]/[D] a fixed winner, [LIP] last input
    priority, [FIP] first input priority. *)
Inductive AxisPolicy : Set :=
  | POLICY_NEUTRAL
  | POLICY_UP_LEFT
  | POLICY_DOWN_RIGHT
  | POLICY_LIP
  | POLICY_FIP.

#[global] Instance AxisPolicy_eq_dec : EqDecision AxisPolicy.
Proof. solve_decision. Defined.

Definition AxisPolicy_all : list AxisPolicy :=
  [ POLICY_NEUTRAL; POLICY_UP_LEFT; POLICY_DOWN_RIGHT; POLICY_LIP; POLICY_FIP ].

#[global, program] Instance AxisPolicy_finite : Finite AxisPolicy :=
  {| enum := AxisPolicy_all |}.
Next Obligation. enum_finite. Qed.
Next Obligation. enum_finite. Qed.

(** The pair (X-policy, Y-policy) of a cleaning method, read off the comment
    the header attaches to its enumerator: [L+R=...] gives the X-policy,
    [U+D=...] the Y-policy; [U>D=D, L>R=R] is last input priority. *)
Definition SOCDMode_policy (m : SOCDMode) : AxisPolicy * AxisPolicy :=
  match m with
  | SOCD_MODE_UP_PRIORITY => (POLICY_NEUTRAL, POLICY_UP_LEFT)
  | SOCD_MODE_NEUTRAL => (POLICY_NEUTRAL, POLICY_NEUTRAL)
  | SOCD_MODE_SECOND_INPUT_PRIORITY => (POLICY_LIP, POLICY_LIP)
  | SOCD_MODE_X_NEUTRAL_Y_NEUTRAL => (POLICY_NEUTRAL, POLICY_NEUTRAL)
  | SOCD_MODE_X_NEUTRAL_Y_DOWN => (POLICY_NEUTRAL, POLICY_DOWN_RIGHT)
  | SOCD_MODE_X_NEUTRAL_Y_UP => (POLICY_NEUTRAL, POLICY_UP_LEFT)
  | SOCD_MODE_X_NEUTRAL_Y_LIP => (POLICY_NEUTRAL, POLICY_LIP)
  | SOCD_MODE_X_NEUTRAL_Y_FIP => (POLICY_NEUTRAL, POLICY_FIP)
  | SOCD_MODE_X_LEFT_Y_NEUTRAL => (POLICY_UP_LEFT, POLICY_NEUTRAL)
  | SOCD_MODE_X_LEFT_Y_DOWN => (POLICY_UP_LEFT, POLICY_DOWN_RIGHT)
  | SOCD_MODE_X_LEFT_Y_UP => (POLICY_UP_LEFT, POLICY_UP_LEFT)
  | SOCD_MODE_X_LEFT_Y_LIP => (POLICY_UP_LEFT, POLICY_LIP)
  | SOCD_MODE_X_LEFT_Y_FIP => (POLICY_UP_LEFT, POLICY_FIP)
  | SOCD_MODE_X_RIGHT_Y_NEUTRAL => (POLICY_DOWN_RIGHT, POLICY_NEUTRAL)
  | SOCD_MODE_X_RIGHT_Y_DOWN => (POLICY_DOWN_RIGHT, POLICY_DOWN_RIGHT)
  | SOCD_MODE_X_RIGHT_Y_UP => (POLICY_DOWN_RIGHT, POLICY_UP_LEFT)
  | SOCD_MODE_X_RIGHT_Y_LIP => (POLICY_DOWN_RIGHT, POLICY_LIP)
  | SOCD_MODE_X_RIGHT_Y_FIP => (POLICY_DOWN_RIGHT, POLICY_FIP)
  | SOCD_MODE_X_LIP_Y_NEUTRAL => (POLICY_LIP, POLICY_NEUTRAL)
  | SOCD_MODE_X_LIP_Y_DOWN => (POLICY_LIP, POLICY_DOWN_RIGHT)
  | SOCD_MODE_X_LIP_Y_UP => (POLICY_LIP, POLICY_UP_LEFT)
  | SOCD_MODE_X_LIP_Y_LIP => (POLICY_LIP, POLICY_LIP)
  | SOCD_MODE_X_LIP_Y_FIP => (POLICY_LIP, POLICY_FIP)
  | SOCD_MODE_X_FIP_Y_NEUTRAL => (POLICY_FIP, POLICY_NEUTRAL)
  | SOCD_MODE_X_FIP_Y_DOWN => (POLICY_FIP, POLICY_DOWN_RIGHT)
  | SOCD_MODE_X_FIP_Y_UP => (POLICY_FIP, POLICY_UP_LEFT)
  | SOCD_MODE_X_FIP_Y_LIP => (POLICY_FIP, POLICY_LIP)
  | SOCD_MODE_X_FIP_Y_FIP => (POLICY_FIP, POLICY_FIP)
  end.

(** The comprehensive enumerator named after a pair of policies,
    [SOCD_MODE_X_<x>_Y_<y>]. *)
Definition SOCDMode_of_policy (p : AxisPolicy * AxisPolicy) : SOCDMode :=
  match p with
  | (POLICY_NEUTRAL, POLICY_NEUTRAL) => SOCD_MODE_X_NEUTRAL_Y_NEUTRAL
  | (POLICY_NEUTRAL, POLICY_DOWN_RIGHT) => SOCD_MODE_X_NEUTRAL_Y_DOWN
  | (POLICY_NEUTRAL, POLICY_UP_LEFT) => SOCD_MODE_X_NEUTRAL_Y_UP
  | (POLICY_NEUTRAL, POLICY_LIP) => SOCD_MODE_X_NEUTRAL_Y_LIP
  | (POLICY_NEUTRAL, POLICY_FIP) => SOCD_MODE_X_NEUTRAL_Y_FIP
  | (POLICY_UP_LEFT, POLICY_NEUTRAL) => SOCD_MODE_X_LEFT_Y_NEUTRAL
  | (POLICY_UP_LEFT, POLICY_DOWN_RIGHT) => SOCD_MODE_X_LEFT_Y_DOWN
  | (POLICY_UP_LEFT, POLICY_UP_LEFT) => SOCD_MODE_X_LEFT_Y_UP
  | (POLICY_UP_LEFT, POLICY_LIP) => SOCD_MODE_X_LEFT_Y_LIP
  | (POLICY_UP_LEFT, POLICY_FIP) => SOCD_MODE_X_LEFT_Y_FIP
  | (POLICY_DOWN_RIGHT, POLICY_NEUTRAL) => SOCD_MODE_X_RIGHT_Y_NEUTRAL
  | (POLICY_DOWN_RIGHT, POLICY_DOWN_RIGHT) => SOCD_MODE_X_RIGHT_Y_DOWN
  | (POLICY_DOWN_RIGHT, POLICY_UP_LEFT) => SOCD_MODE_X_RIGHT_Y_UP
  | (POLICY_DOWN_RIGHT, POLICY_LIP) => SOCD_MODE_X_RIGHT_Y_LIP
  | (POLICY_DOWN_RIGHT, POLICY_FIP) => SOCD_MODE_X_RIGHT_Y_FIP
  | (POLICY_LIP, POLICY_NEUTRAL) => SOCD_MODE_X_LIP_Y_NEUTRAL
  | (POLICY_LIP, POLICY_DOWN_RIGHT) => SOCD_MODE_X_LIP_Y_DOWN
  | (POLICY_LIP, POLICY_UP_LEFT) => SOCD_MODE_X_LIP_Y_UP
  | (POLICY_LIP, POLICY_LIP) => SOCD_MODE_X_LIP_Y_LIP
  | (POLICY_LIP, POLICY_FIP) => SOCD_MODE_X_LIP_Y_FIP
  | (POLICY_FIP, POLICY_NEUTRAL) => SOCD_MODE_X_FIP_Y_NEUTRAL
  | (POLICY_FIP, POLICY_DOWN_RIGHT) => SOCD_MODE_X_FIP_Y_DOWN
  | (POLICY_FIP, POLICY_UP_LEFT) => SOCD_MODE_X_FIP_Y_UP
  | (POLICY_FIP, POLICY_LIP) => SOCD_MODE_X_FIP_Y_LIP
  | (POLICY_FIP, POLICY_FIP) => SOCD_MODE_X_FIP_Y_FIP
  end.

(** Legacy enumerators are the ones of the first block of the header. *)
Definition is_legacy (m : SOCDMode) : bool :=
  bool_decide (m ∈ SOCDMode_legacy).

(** The enumerators of [SOCDMode] that are not legacy. *)
Definition non_legacy : list SOCDMode :=
  filter (λ m, is_legacy m = false) SOCDMode_all.

(** ** The input resolver

    The header only names the configurations of the resolver; the resolver
    itself is described by the specification (sections 4.1, 4.2 and 7). *)

Module Resolver.

(** Modelled from the spec: the state the DirectionalStateTracker keeps for
    one axis (section 4.1; the header declares only [DpadDirection]).  The
    tracker "retains both the first press (never overwritten while held) and
    last press (always overwritten on new press)". *)
Record AxisTracker : Set := mkAxisTracker {
  first_press : DpadDirection;
  last_press : DpadDirection
}.

(** Modelled from the spec: the DirectionalStateTracker, "two instances (one
    per axis)" of the tracked direction (section 3). *)
Record DirectionalStateTracker : Set := mkTracker {
  track_x : AxisTracker;
  track_y : AxisTracker
}.

(** Modelled from the spec: the reset state, "reset to None when both
    opposing inputs release". *)
Definition axis_reset : AxisTracker :=
  mkAxisTracker DIRECTION_NONE DIRECTION_NONE.

(** Modelled from the spec: [update] of section 4.1 on the axis whose
    opposing directions are [A] and [B].  Both released resets the state; a
    single held direction is both the first and the last press; when both
    are held the first press is kept and the other direction is the last
    press, and a pair pressed together from the reset state stays unknown. *)
Definition update_axis (A B : DpadDirection) (t : AxisTracker)
    (pressedA pressedB : bool) : AxisTracker :=
  match pressedA, pressedB with
  | false, false => axis_reset
  | true, false => mkAxisTracker A A
  | false, true => mkAxisTracker B B
  | true, true =>
      if decide (first_press t = A) then mkAxisTracker A B
      else if decide (first_press t = B) then mkAxisTracker B A
      else axis_reset
  end.

(** Modelled from the spec: the tracker update of one frame, "called once
    per axis per frame". *)
Definition update (t : DirectionalStateTracker)
    (rawUp rawDown rawLeft rawRight : bool) : DirectionalStateTracker :=
  mkTracker
    (update_axis DIRECTION_LEFT DIRECTION_RIGHT (track_x t) rawLeft rawRight)
    (update_axis DIRECTION_UP DIRECTION_DOWN (track_y t) rawUp rawDown).

(** Modelled from the spec: the outcome of a recency policy on the axis
    [A]/[B]: the tracked direction wins, and "if simultaneous/unknown, falls
    back to Neutral". *)
Definition tracked (A B d : DpadDirection) : bool * bool :=
  if decide (d = A) then (true, false)
  else if decide (d = B) then (false, true)
  else (false, false).

(** Modelled from the spec: the per-axis policy table of section 4.2.  The
    table applies when both directions are pressed; otherwise the "output
    simply mirrors raw input". *)
Definition clean_axis (p : AxisPolicy) (A B : DpadDirection)
    (t : AxisTracker) (a b : bool) : bool * bool :=
  if a && b then
    match p with
    | POLICY_NEUTRAL => (false, false)
    | POLICY_UP_LEFT => (true, false)
    | POLICY_DOWN_RIGHT => (false, true)
    | POLICY_LIP => tracked A B (last_press t)
    | POLICY_FIP => tracked A B (first_press t)
    end
  else (a, b).

(** Modelled from the spec: the configuration-validity rule of section 7,
    "treating any unrecognized mode value as the safest default (Neutral
    SOCD cleaning, Digital dpad mode)". *)
Definition policy_of_mode (mode : Z) : AxisPolicy * AxisPolicy :=
  match SOCDMode_of_value mode with
  | Some m => SOCDMode_policy m
  | None => (POLICY_NEUTRAL, POLICY_NEUTRAL)
  end.

(** Modelled from the spec: the same rule of section 7 for the dpad mode. *)
Definition dpad_of_mode (dpadMode : Z) : DpadMode :=
  default DPAD_MODE_DIGITAL (DpadMode_of_value dpadMode).

(** Modelled from the spec: [CleanedInput] of section 4.2, "either four
    cleaned booleans (DpadMode=Digital) or two signed axis magnitudes"; a
    held direction is "mapped to full-scale magnitude", here -1 or 1. *)
Inductive CleanedInput : Set :=
  | Digital (cleanUp cleanDown cleanLeft cleanRight : bool)
  | Analog (x y : Z).

(** Modelled from the spec: the full-scale magnitude of an axis whose
    directions are [a] (towards -1: left, up) and [b] (towards 1: right,
    down). *)
Definition magnitude (a b : bool) : Z := Z.b2z b - Z.b2z a.

(** Modelled from the spec: [resolve] of section 4.2.  The mode arguments
    are the stored integers of the configuration. *)
Definition resolve (mode dpadMode : Z) (rawUp rawDown rawLeft rawRight : bool)
    (tracker : DirectionalStateTracker) : CleanedInput :=
  let '(px, py) := policy_of_mode mode in
  let '(l, r) :=
    clean_axis px DIRECTION_LEFT DIRECTION_RIGHT (track_x tracker)
      rawLeft rawRight in
  let '(u, d) :=
    clean_axis py DIRECTION_UP DIRECTION_DOWN (track_y tracker)
      rawUp rawDown in
  match dpad_of_mode dpadMode with
  | DPAD_MODE_DIGITAL => Digital u d l r
  | DPAD_MODE_LEFT_ANALOG | DPAD_MODE_RIGHT_ANALOG =>
      Analog (magnitude l r) (magnitude u d)
  end.

(** Modelled from the spec: one frame of the control loop of section 5,
    "tracker update → SOCD resolve". *)
Definition frame (mode dpadMode : Z) (rawUp rawDown rawLeft rawRight : bool)
    (tracker : DirectionalStateTracker)
    : DirectionalStateTracker * CleanedInput :=
  let tracker' := update tracker rawUp rawDown rawLeft rawRight in
  (tracker', resolve mode dpadMode rawUp rawDown rawLeft rawRight tracker').

(** Modelled from the spec: whether a cleaned output asserts a direction. *)
Definition asserted (out : CleanedInput) (d : DpadDirection) : bool :=
  match out, d with
  | _, DIRECTION_NONE => false
  | Digital u _ _ _, DIRECTION_UP => u
  | Digital _ d _ _, DIRECTION_DOWN => d
  | Digital _ _ l _, DIRECTION_LEFT => l
  | Digital _ _ _ r, DIRECTION_RIGHT => r
  | Analog _ y, DIRECTION_UP => y <? 0
  | Analog _ y, DIRECTION_DOWN => 0 <? y
  | Analog x _, DIRECTION_LEFT => x <? 0
  | Analog x _, DIRECTION_RIGHT => 0 <? x
  end.

(** Modelled from the spec: the cleaned pair (Left, Right) of the X axis
    that [resolve] encodes in its output. *)
Definition cleaned_x (out : CleanedInput) : bool * bool :=
  (asserted out DIRECTION_LEFT, asserted out DIRECTION_RIGHT).

(** Modelled from the spec: the cleaned pair (Up, Down) of the Y axis that
    [resolve] encodes in its output. *)
Definition cleaned_y (out : CleanedInput) : bool * bool :=
  (asserted out DIRECTION_UP, asserted out DIRECTION_DOWN).

(** Modelled from the spec: [resolve] under [mode] applies the policy [px]
    to the X axis and the policy [py] to the Y axis when, whatever the dpad
    mode, the raw input and the tracker, its output asserts on either axis
    what the policy table gives for that axis. *)
Definition applies (mode : Z) (px py : AxisPolicy) : Prop :=
  ∀ (dpadMode : Z) (rawUp rawDown rawLeft rawRight : bool)
    (tracker : DirectionalStateTracker),
    let out := resolve mode dpadMode rawUp rawDown rawLeft rawRight tracker in
    cleaned_x out =
      clean_axis px DIRECTION_LEFT DIRECTION_RIGHT (track_x tracker)
        rawLeft rawRight
    ∧ cleaned_y out =
      clean_axis py DIRECTION_UP DIRECTION_DOWN (track_y tracker)
        rawUp rawDown.

(** Modelled from the spec: "one symmetric policy to both axes". *)
Definition symmetric (mode : Z) : Prop := ∃ p : AxisPolicy, applies mode p p.

End Resolver.

(** ** Further readings of the header *)

(** The input modes in source order. *)
Definition InputMode_all : list InputMode := InputMode_decl.*1.

Definition InputMode_of_value : Z → option InputMode :=
  of_value InputMode_all InputMode_value.

(** The place of a policy in the X order of the comprehensive block: the
    enumerators [SOCD_MODE_X_<x>_...] come as NEUTRAL, LEFT, RIGHT, LIP,
    FIP (lines 37, 42, 47, 52, 57). *)
Definition x_position (p : AxisPolicy) : Z :=
  match p with
  | POLICY_NEUTRAL => 0
  | POLICY_UP_LEFT => 1
  | POLICY_DOWN_RIGHT => 2
  | POLICY_LIP => 3
  | POLICY_FIP => 4
  end.

(** The place of a policy in the Y order of the comprehensive block: within
    every X group the enumerators [..._Y_<y>] come as NEUTRAL, DOWN, UP,
    LIP, FIP (lines 37 to 41). *)
Definition y_position (p : AxisPolicy) : Z :=
  match p with
  | POLICY_NEUTRAL => 0
  | POLICY_DOWN_RIGHT => 1
  | POLICY_UP_LEFT => 2
  | POLICY_LIP => 3
  | POLICY_FIP => 4
  end.

(** The first constant of the comprehensive block. *)
Definition comprehensive_base : Z :=
  SOCDMode_value SOCD_MODE_X_NEUTRAL_Y_NEUTRAL.

(** The X order of the comprehensive block: the groups
    [SOCD_MODE_X_<x>_...] come as NEUTRAL, LEFT, RIGHT, LIP, FIP (lines 37,
    42, 47, 52, 57). *)
Definition x_order : list AxisPolicy :=
  [ POLICY_NEUTRAL; POLICY_UP_LEFT; POLICY_DOWN_RIGHT; POLICY_LIP;
    POLICY_FIP ].

(** The Y order within every X group: [..._Y_<y>] comes as NEUTRAL, DOWN,
    UP, LIP, FIP (lines 37 to 41). *)
Definition y_order : list AxisPolicy :=
  [ POLICY_NEUTRAL; POLICY_DOWN_RIGHT; POLICY_UP_LEFT; POLICY_LIP;
    POLICY_FIP ].

(** A cleaning method is an all-axis policy when the comment of its
    enumerator gives the X axis and the Y axis the same policy. *)
Definition all_axis (m : SOCDMode) : Prop :=
  (SOCDMode_policy m).1 = (SOCDMode_policy m).2.

(** * Properties *)

(** ** The value functions follow the C numbering rule *)

Lemma InputMode_numbered : numbered_by InputMode_decl InputMode_value.
Proof. reflexivity. Qed.

Lemma DpadMode_numbered :
  numbered_by (CEnum.plain DpadMode_all) DpadMode_value.
Proof. reflexivity. Qed.

Lemma SOCDMode_numbered :
  numbered_by (CEnum.plain SOCDMode_all) SOCDMode_value.
Proof. reflexivity. Qed.

Lemma DpadDirection_numbered :
  numbered_by (CEnum.plain DpadDirection_all) DpadDirection_value.
Proof. reflexivity. Qed.

Lemma GamepadHotkey_numbered :
  numbered_by GamepadHotkey_decl GamepadHotkey_value.
Proof. reflexivity. Qed.

(** ** Reading a stored integer back *)

Section of_value.
Context {A : Type} (all : list A) (value : A → Z).

Lemma of_value_Some v e : of_value all value v = Some e → value e = v.
Proof.
  unfold of_value. intros H. apply find_some in H as [_ H]. lia.
Qed.

Lemma of_value_None v : (∀ e, value e ≠ v) → of_value all value v = None.
Proof.
  intros Hv. destruct (of_value all value v) as [e|] eqn:He; [|done].
  apply of_value_Some in He. by destruct (Hv e).
Qed.
End of_value.

Lemma DpadMode_of_value_value m :
  DpadMode_of_value (DpadMode_value m) = Some m.
Proof. by destruct m. Qed.

Lemma SOCDMode_of_value_value m :
  SOCDMode_of_value (SOCDMode_value m) = Some m.
Proof. by destruct m. Qed.

Lemma DpadDirection_of_value_value d :
  DpadDirection_of_value (DpadDirection_value d) = Some d.
Proof. by destruct d. Qed.

(** ** The SOCDMode enumeration *)

Lemma non_legacy_comprehensive : non_legacy = SOCDMode_comprehensive.
Proof. reflexivity. Qed.

Lemma SOCDMode_policy_of_policy p :
  SOCDMode_policy (SOCDMode_of_policy p) = p.
Proof. by destruct p as [[] []]. Qed.

Lemma SOCDMode_of_policy_non_legacy p :
  is_legacy (SOCDMode_of_policy p) = false.
Proof. by destruct p as [[] []]. Qed.

Lemma SOCDMode_of_policy_policy m :
  is_legacy m = false → SOCDMode_of_policy (SOCDMode_policy m) = m.
Proof. by destruct m. Qed.

(** C6, as the header has it: the enumeration declares 28 enumerators, three
    legacy ones and twenty-five comprehensive ones, and not 25. *)
Lemma SOCDMode_not_25_variants : length SOCDMode_all ≠ 25%nat.
Proof. discriminate. Qed.

(** C6 (amended): the SOCDMode enumeration declares exactly 28 variants, 3
    legacy and 25 comprehensive: the declaration is the legacy block
    followed by the comprehensive block, it lists 28 pairwise distinct
    enumerators, numbered 0 to 27 (legacy 0 to 2, comprehensive 3 to 27),
    and they are all the values of the type. *)
Theorem SOCDMode_28_variants :
  length SOCDMode_all = 28%nat
  ∧ card SOCDMode = 28%nat
  ∧ NoDup SOCDMode_all
  ∧ (∀ m : SOCDMode, m ∈ SOCDMode_all)
  ∧ SOCDMode_value <$> SOCDMode_all = seqZ 0 28
  ∧ SOCDMode_all = SOCDMode_legacy ++ SOCDMode_comprehensive
  ∧ length SOCDMode_legacy = 3%nat
  ∧ length SOCDMode_comprehensive = 25%nat
  ∧ filter (λ m, is_legacy m = true) SOCDMode_all = SOCDMode_legacy
  ∧ filter (λ m, is_legacy m = false) SOCDMode_all = SOCDMode_comprehensive
  ∧ SOCDMode_value <$> SOCDMode_legacy = seqZ 0 3
  ∧ SOCDMode_value <$> SOCDMode_comprehensive = seqZ 3 25.
Proof.
  split_and!; try reflexivity.
  - exact (NoDup_enum SOCDMode).
  - exact (@elem_of_enum SOCDMode _ _).
Qed.

(** C2, as the header has it: the legacy variants do not cover all-axis
    policies only: [SOCD_MODE_UP_PRIORITY] (U+D=U, L+R=N) gives the two axes
    different policies. *)
Lemma legacy_not_all_axis : ¬ Forall all_axis SOCDMode_legacy.
Proof.
  intros H. apply Forall_cons in H as [H _]. discriminate H.
Qed.

(** C2 (amended): the pairs (X-policy, Y-policy) of the 25 comprehensive
    variants, in source order, are the cross product of the X order
    NEUTRAL, LEFT, RIGHT, LIP, FIP with the Y order NEUTRAL, DOWN, UP, LIP,
    FIP, so every pair over the five policies belongs to exactly one of
    them; every variant, legacy or not, has the pair of exactly one
    comprehensive variant; the legacy variants are aliases,
    [SOCD_MODE_UP_PRIORITY] of [SOCD_MODE_X_NEUTRAL_Y_UP],
    [SOCD_MODE_NEUTRAL] of [SOCD_MODE_X_NEUTRAL_Y_NEUTRAL] and
    [SOCD_MODE_SECOND_INPUT_PRIORITY] of [SOCD_MODE_X_LIP_Y_LIP]; the last
    two are all-axis policies, [SOCD_MODE_UP_PRIORITY] is not. *)
Theorem SOCDMode_policy_cross_product :
  SOCDMode_policy <$> SOCDMode_comprehensive = list_prod x_order y_order
  ∧ NoDup (SOCDMode_policy <$> SOCDMode_comprehensive)
  ∧ (∀ p : AxisPolicy * AxisPolicy,
       p ∈ SOCDMode_policy <$> SOCDMode_comprehensive)
  ∧ (∀ m : SOCDMode, ∃ c : SOCDMode,
       c ∈ SOCDMode_comprehensive
       ∧ SOCDMode_policy c = SOCDMode_policy m
       ∧ ∀ c' : SOCDMode,
           c' ∈ SOCDMode_comprehensive →
           SOCDMode_policy c' = SOCDMode_policy m → c' = c)
  ∧ SOCDMode_policy SOCD_MODE_UP_PRIORITY
    = SOCDMode_policy SOCD_MODE_X_NEUTRAL_Y_UP
  ∧ SOCDMode_policy SOCD_MODE_NEUTRAL
    = SOCDMode_policy SOCD_MODE_X_NEUTRAL_Y_NEUTRAL
  ∧ SOCDMode_policy SOCD_MODE_SECOND_INPUT_PRIORITY
    = SOCDMode_policy SOCD_MODE_X_LIP_Y_LIP
  ∧ all_axis SOCD_MODE_NEUTRAL
  ∧ all_axis SOCD_MODE_SECOND_INPUT_PRIORITY
  ∧ ¬ all_axis SOCD_MODE_UP_PRIORITY.
Proof.
  split_and!; try reflexivity.
  - apply (bool_decide_unpack _). by vm_compute.
  - intros p. apply (bool_decide_unpack _). by destruct p as [[] []].
  - intros m. exists (SOCDMode_of_policy (SOCDMode_policy m)). split_and!.
    + rewrite <- non_legacy_comprehensive. apply (bool_decide_unpack _).
      by destruct m.
    + apply SOCDMode_policy_of_policy.
    + intros c' Hin <-. symmetry. apply SOCDMode_of_policy_policy.
      rewrite <- non_legacy_comprehensive in Hin.
      unfold non_legacy in Hin. by apply list_elem_of_filter in Hin as [? _].
  - discriminate.
Qed.

(** C7, as the header has it: the comprehensive enumerators are not 22. *)
Lemma non_legacy_not_22 : length non_legacy ≠ 22%nat.
Proof. discriminate. Qed.

(** C7 (amended): exactly 25 of the SOCDMode enumerators are comprehensive
    (not legacy), and [SOCDMode_policy] and [SOCDMode_of_policy] translate
    between them and the pairs (X-policy, Y-policy), one to one and onto. *)
Theorem comprehensive_policy_bijection :
  length non_legacy = 25%nat
  ∧ NoDup non_legacy
  ∧ length non_legacy = (card AxisPolicy * card AxisPolicy)%nat
  ∧ Forall (λ m, SOCDMode_of_policy (SOCDMode_policy m) = m) non_legacy
  ∧ (∀ p : AxisPolicy * AxisPolicy,
        SOCDMode_of_policy p ∈ non_legacy
        ∧ SOCDMode_policy (SOCDMode_of_policy p) = p).
Proof.
  split_and!; try reflexivity.
  - apply (bool_decide_unpack _). by vm_compute.
  - apply (bool_decide_unpack _). by vm_compute.
  - intros p. split; [|apply SOCDMode_policy_of_policy].
    apply (bool_decide_unpack _). by destruct p as [[] []]; vm_compute.
Qed.

(** C8: [SOCD_MODE_UP_PRIORITY] is the constant 0 and [SOCD_MODE_NEUTRAL]
    the constant 1, so a zero-initialised SOCDMode is the up-priority method
    (U+D=U, L+R=N), whose policies are not the neutral ones. *)
Theorem SOCDMode_zero_is_up_priority :
  SOCDMode_value SOCD_MODE_UP_PRIORITY = 0
  ∧ SOCDMode_value SOCD_MODE_NEUTRAL = 1
  ∧ SOCDMode_of_value 0 = Some SOCD_MODE_UP_PRIORITY
  ∧ SOCDMode_policy SOCD_MODE_UP_PRIORITY = (POLICY_NEUTRAL, POLICY_UP_LEFT)
  ∧ SOCDMode_policy SOCD_MODE_NEUTRAL = (POLICY_NEUTRAL, POLICY_NEUTRAL)
  ∧ SOCDMode_policy SOCD_MODE_UP_PRIORITY
      ≠ SOCDMode_policy SOCD_MODE_NEUTRAL.
Proof. by split_and!. Qed.

(** C10: DpadDirection declares exactly five enumerators with pairwise
    distinct constants, [DIRECTION_NONE] is the constant 0, and a
    zero-initialised direction reads back as [DIRECTION_NONE]. *)
Theorem DpadDirection_five_values :
  length DpadDirection_all = 5%nat
  ∧ card DpadDirection = 5%nat
  ∧ (∀ d : DpadDirection, d ∈ DpadDirection_all)
  ∧ NoDup (DpadDirection_value <$> DpadDirection_all)
  ∧ (∀ d : DpadDirection,
        DpadDirection_of_value (DpadDirection_value d) = Some d)
  ∧ DpadDirection_value DIRECTION_NONE = 0
  ∧ DpadDirection_of_value 0 = Some DIRECTION_NONE.
Proof.
  split_and!; try reflexivity.
  - exact (@elem_of_enum DpadDirection _ _).
  - apply (bool_decide_unpack _). by vm_compute.
  - apply DpadDirection_of_value_value.
Qed.

(** ** The resolver *)

Section resolver.
Import Resolver.

Implicit Types (p : AxisPolicy) (t : AxisTracker) (a b u d l r : bool).
Implicit Types (tracker : DirectionalStateTracker) (mode dpadMode : Z).

Lemma tracked_exclusive A B dir :
  (tracked A B dir).1 && (tracked A B dir).2 = false.
Proof. unfold tracked. by repeat case_decide. Qed.

(** No policy asserts both directions of its axis. *)
Lemma clean_axis_exclusive p A B t a b :
  (clean_axis p A B t a b).1 && (clean_axis p A B t a b).2 = false.
Proof.
  unfold clean_axis. destruct (a && b) eqn:Hab; [|done].
  destruct p; auto using tracked_exclusive.
Qed.

(** Without a conflict on the axis the raw input passes through. *)
Lemma clean_axis_mirror p A B t a b :
  a && b = false → clean_axis p A B t a b = (a, b).
Proof. unfold clean_axis. by intros ->. Qed.

Lemma magnitude_asserted a b :
  a && b = false →
  (magnitude a b <? 0) = a ∧ (0 <? magnitude a b) = b.
Proof. by destruct a, b. Qed.

(** Both encodings of the output keep the cleaned pair of either axis. *)
Lemma resolve_cleaned mode dpadMode u d l r tracker :
  let out := resolve mode dpadMode u d l r tracker in
  cleaned_x out =
    clean_axis (policy_of_mode mode).1 DIRECTION_LEFT DIRECTION_RIGHT
      (track_x tracker) l r
  ∧ cleaned_y out =
    clean_axis (policy_of_mode mode).2 DIRECTION_UP DIRECTION_DOWN
      (track_y tracker) u d.
Proof.
  unfold resolve, cleaned_x, cleaned_y.
  destruct (policy_of_mode mode) as [px py]; simpl.
  pose proof (clean_axis_exclusive px DIRECTION_LEFT DIRECTION_RIGHT
                (track_x tracker) l r) as Hx.
  pose proof (clean_axis_exclusive py DIRECTION_UP DIRECTION_DOWN
                (track_y tracker) u d) as Hy.
  destruct (clean_axis px _ _ _ _ _) as [cl cr],
           (clean_axis py _ _ _ _ _) as [cu cd]; simpl in Hx, Hy.
  destruct (dpad_of_mode dpadMode); simpl; [done|..];
    by destruct (magnitude_asserted _ _ Hx) as [-> ->],
                (magnitude_asserted _ _ Hy) as [-> ->].
Qed.

Lemma applies_policy_of_mode mode :
  applies mode (policy_of_mode mode).1 (policy_of_mode mode).2.
Proof. intros dpadMode u d l r tracker. apply resolve_cleaned. Qed.

Lemma policy_of_mode_value (m : SOCDMode) :
  policy_of_mode (SOCDMode_value m) = SOCDMode_policy m.
Proof. unfold policy_of_mode. by rewrite SOCDMode_of_value_value. Qed.

Lemma policy_of_mode_unrecognized mode :
  (∀ m : SOCDMode, SOCDMode_value m ≠ mode) →
  policy_of_mode mode = (POLICY_NEUTRAL, POLICY_NEUTRAL).
Proof.
  intros Hm. unfold policy_of_mode, SOCDMode_of_value.
  by rewrite of_value_None.
Qed.

Lemma dpad_of_mode_unrecognized dpadMode :
  (∀ m : DpadMode, DpadMode_value m ≠ dpadMode) →
  dpad_of_mode dpadMode = DPAD_MODE_DIGITAL.
Proof.
  intros Hm. unfold dpad_of_mode, DpadMode_of_value.
  by rewrite of_value_None.
Qed.

End resolver.

Section resolver_properties.
Import Resolver.

(** C1: for every SOCDMode variant, every tracker state and every raw
    input (so each of the four combinations of either opposing pair), the
    output of [resolve] asserts at most one direction of the pair
    Left/Right and at most one of the pair Up/Down, whatever the dpad
    mode. *)
Theorem resolve_at_most_one_direction
    (m : SOCDMode) (dpadMode : Z) (rawUp rawDown rawLeft rawRight : bool)
    (tracker : DirectionalStateTracker) :
  let out :=
    resolve (SOCDMode_value m) dpadMode rawUp rawDown rawLeft rawRight
      tracker in
  asserted out DIRECTION_LEFT && asserted out DIRECTION_RIGHT = false
  ∧ asserted out DIRECTION_UP && asserted out DIRECTION_DOWN = false.
Proof.
  intros out.
  destruct (resolve_cleaned (SOCDMode_value m) dpadMode
              rawUp rawDown rawLeft rawRight tracker) as [Hx Hy].
  fold out in Hx, Hy. unfold cleaned_x, cleaned_y in Hx, Hy. split.
  - pose proof (f_equal fst Hx) as Hl. pose proof (f_equal snd Hx) as Hr.
    cbn [fst snd] in Hl, Hr. rewrite Hl, Hr. apply clean_axis_exclusive.
  - pose proof (f_equal fst Hy) as Hu. pose proof (f_equal snd Hy) as Hd.
    cbn [fst snd] in Hu, Hd. rewrite Hu, Hd. apply clean_axis_exclusive.
Qed.

(** C3, as the header has it: [SOCD_MODE_UP_PRIORITY] (U+D=U, L+R=N) does
    not apply one and the same policy to both axes. *)
Lemma up_priority_not_symmetric :
  ¬ symmetric (SOCDMode_value SOCD_MODE_UP_PRIORITY).
Proof.
  intros [p Hp].
  specialize (Hp 0 true true true true (mkTracker axis_reset axis_reset)).
  destruct Hp as [Hx Hy]. destruct p; vm_compute in Hx, Hy; congruence.
Qed.

(** C3 (amended): the legacy variants [SOCD_MODE_NEUTRAL] and
    [SOCD_MODE_SECOND_INPUT_PRIORITY] apply one and the same policy to
    both axes (neutral, respectively last input priority), and
    [SOCD_MODE_UP_PRIORITY] applies up priority to the Y axis and neutral
    to the X axis. *)
Theorem legacy_modes_policies :
  applies (SOCDMode_value SOCD_MODE_NEUTRAL) POLICY_NEUTRAL POLICY_NEUTRAL
  ∧ symmetric (SOCDMode_value SOCD_MODE_NEUTRAL)
  ∧ applies (SOCDMode_value SOCD_MODE_SECOND_INPUT_PRIORITY)
      POLICY_LIP POLICY_LIP
  ∧ symmetric (SOCDMode_value SOCD_MODE_SECOND_INPUT_PRIORITY)
  ∧ applies (SOCDMode_value SOCD_MODE_UP_PRIORITY)
      POLICY_NEUTRAL POLICY_UP_LEFT.
Proof.
  split_and!.
  - apply (applies_policy_of_mode (SOCDMode_value SOCD_MODE_NEUTRAL)).
  - exists POLICY_NEUTRAL.
    apply (applies_policy_of_mode (SOCDMode_value SOCD_MODE_NEUTRAL)).
  - apply (applies_policy_of_mode
             (SOCDMode_value SOCD_MODE_SECOND_INPUT_PRIORITY)).
  - exists POLICY_LIP.
    apply (applies_policy_of_mode
             (SOCDMode_value SOCD_MODE_SECOND_INPUT_PRIORITY)).
  - apply (applies_policy_of_mode (SOCDMode_value SOCD_MODE_UP_PRIORITY)).
Qed.

(** C4: with mode [SOCD_MODE_UP_PRIORITY] and all four raw directions
    pressed, the output of [resolve] asserts Up and neither Down, Left nor
    Right, whatever the tracker and the dpad mode; in digital mode it is
    Up=true, Down=false, Left=false, Right=false. *)
Theorem up_priority_all_pressed
    (dpadMode : Z) (tracker : DirectionalStateTracker) :
  let out :=
    resolve (SOCDMode_value SOCD_MODE_UP_PRIORITY) dpadMode
      true true true true tracker in
  asserted out DIRECTION_UP = true
  ∧ asserted out DIRECTION_DOWN = false
  ∧ asserted out DIRECTION_LEFT = false
  ∧ asserted out DIRECTION_RIGHT = false
  ∧ clean_axis POLICY_UP_LEFT DIRECTION_UP DIRECTION_DOWN (track_y tracker)
      true true = (true, false)
  ∧ clean_axis POLICY_NEUTRAL DIRECTION_LEFT DIRECTION_RIGHT
      (track_x tracker) true true = (false, false)
  ∧ resolve (SOCDMode_value SOCD_MODE_UP_PRIORITY)
      (DpadMode_value DPAD_MODE_DIGITAL) true true true true tracker
    = Digital true false false false.
Proof.
  intros out. subst out. unfold resolve.
  rewrite policy_of_mode_value. simpl.
  by destruct (dpad_of_mode dpadMode).
Qed.

(** C5: a SOCDMode value that is none of the named variants makes
    [resolve] apply neutral cleaning to both axes, with the very output of
    [SOCD_MODE_NEUTRAL]; a DpadMode value that is none of the named ones
    is treated as [DPAD_MODE_DIGITAL].  [resolve] is a total function: it
    has an output, and no error, at every such value. *)
Theorem unrecognized_modes_fall_back
    (mode dpadMode : Z) (rawUp rawDown rawLeft rawRight : bool)
    (tracker : DirectionalStateTracker) :
  ((∀ m : SOCDMode, SOCDMode_value m ≠ mode) →
     applies mode POLICY_NEUTRAL POLICY_NEUTRAL
     ∧ resolve mode dpadMode rawUp rawDown rawLeft rawRight tracker
       = resolve (SOCDMode_value SOCD_MODE_NEUTRAL) dpadMode
           rawUp rawDown rawLeft rawRight tracker)
  ∧ ((∀ m : DpadMode, DpadMode_value m ≠ dpadMode) →
       resolve mode dpadMode rawUp rawDown rawLeft rawRight tracker
       = resolve mode (DpadMode_value DPAD_MODE_DIGITAL)
           rawUp rawDown rawLeft rawRight tracker
       ∧ ∃ u d l r,
           resolve mode dpadMode rawUp rawDown rawLeft rawRight tracker
           = Digital u d l r).
Proof.
  split.
  - intros Hm. pose proof (policy_of_mode_unrecognized mode Hm) as Hp.
    split.
    + pose proof (applies_policy_of_mode mode) as Ha.
      by rewrite Hp in Ha.
    + unfold resolve. by rewrite Hp, policy_of_mode_value.
  - intros Hm. pose proof (dpad_of_mode_unrecognized dpadMode Hm) as Hd.
    unfold resolve. rewrite Hd. split; [done|].
    destruct (policy_of_mode mode) as [px py].
    destruct (clean_axis px _ _ _ _ _) as [cl cr],
             (clean_axis py _ _ _ _ _) as [cu cd].
    by exists cu, cd, cl, cr.
Qed.

(** The fallback at the first integers past the two enumerations, with
    every direction held. *)
Lemma unrecognized_modes_fall_back_witness :
  (∀ m : SOCDMode, SOCDMode_value m ≠ 28)
  ∧ (∀ m : DpadMode, DpadMode_value m ≠ 3)
  ∧ resolve 28 3 true true true true (mkTracker axis_reset axis_reset)
    = resolve (SOCDMode_value SOCD_MODE_NEUTRAL) 3 true true true true
        (mkTracker axis_reset axis_reset)
  ∧ resolve 28 3 true true true true (mkTracker axis_reset axis_reset)
    = resolve 28 (DpadMode_value DPAD_MODE_DIGITAL) true true true true
        (mkTracker axis_reset axis_reset).
Proof.
  assert (Hs : ∀ m : SOCDMode, SOCDMode_value m ≠ 28)
    by (intros []; discriminate).
  assert (Hd : ∀ m : DpadMode, DpadMode_value m ≠ 3)
    by (intros []; discriminate).
  destruct (unrecognized_modes_fall_back 28 3 true true true true
              (mkTracker axis_reset axis_reset)) as [H1 H2].
  split; [exact Hs|]. split; [exact Hd|].
  split; [exact (proj2 (H1 Hs)) | exact (proj1 (H2 Hd))].
Defined.

(** The scenarios of the specification, section 8, on the model. *)

Example scenario_x_left_y_up tracker :
  resolve (SOCDMode_value SOCD_MODE_X_LEFT_Y_UP)
    (DpadMode_value DPAD_MODE_DIGITAL) true true true true tracker
  = Digital true false true false.
Proof. reflexivity. Qed.

(** Left, then Right while Left is held, then Right released. *)
Example scenario_last_input_priority :
  let mode := SOCDMode_value SOCD_MODE_X_LIP_Y_LIP in
  let t0 := mkTracker axis_reset axis_reset in
  let '(t1, o1) := frame mode 0 false false true false t0 in
  let '(t2, o2) := frame mode 0 false false true true t1 in
  let '(t3, o3) := frame mode 0 false false true false t2 in
  [o1; o2; o3] =
    [ Digital false false true false;
      Digital false false false true;
      Digital false false true false ].
Proof. reflexivity. Qed.

Example scenario_first_input_priority :
  let mode := SOCDMode_value SOCD_MODE_X_FIP_Y_FIP in
  let t0 := mkTracker axis_reset axis_reset in
  let '(t1, o1) := frame mode 0 false false true false t0 in
  let '(t2, o2) := frame mode 0 false false true true t1 in
  let '(t3, o3) := frame mode 0 false false false true t2 in
  [o1; o2; o3] =
    [ Digital false false true false;
      Digital false false true false;
      Digital false false false true ].
Proof. reflexivity. Qed.

End resolver_properties.

(** ** Hotkey flags *)

Section hotkey.
Import Hotkey.

Implicit Types (h : GamepadHotkey) (s : gset GamepadHotkey) (v k : Z).

Lemma shl1U_pow2 k : 0 ≤ k < 32 → CEnum.shl1U k = 2 ^ k.
Proof.
  intros Hk. unfold CEnum.shl1U.
  rewrite Z.shiftl_1_l. apply Z.mod_small. split; [lia|].
  apply Z.pow_lt_mono_r; lia.
Qed.

(** Every flag is the power of two of its bit; [HOTKEY_NONE] is 0. *)
Lemma GamepadHotkey_value_bit h :
  GamepadHotkey_value h = from_option (Z.pow 2) 0 (bit h)
  ∧ from_option (λ k, 0 ≤ k < 10) True (bit h).
Proof. destruct h; simpl; split; (reflexivity || lia). Qed.

Lemma bit_None h : bit h = None ↔ h = HOTKEY_NONE.
Proof. by destruct h. Qed.

Lemma bit_inj h1 h2 k : bit h1 = Some k → bit h2 = Some k → h1 = h2.
Proof. destruct h1, h2; simpl; congruence. Qed.

Lemma GamepadHotkey_value_testbit h k :
  Z.testbit (GamepadHotkey_value h) k = true ↔ bit h = Some k.
Proof.
  destruct (GamepadHotkey_value_bit h) as [-> Hk].
  destruct (bit h) as [j|]; simpl in *.
  - rewrite Z.pow2_bits_eqb by lia. rewrite Z.eqb_eq. naive_solver.
  - by rewrite Z.bits_0.
Qed.

(** The bits of a composed action set are the bits of its members. *)
Lemma compose_testbit s k :
  Z.testbit (compose s) k = true ↔ ∃ h, h ∈ s ∧ bit h = Some k.
Proof.
  unfold compose.
  apply (set_fold_ind_L
           (λ r X, Z.testbit r k = true ↔ ∃ h, h ∈ X ∧ bit h = Some k)).
  - rewrite Z.bits_0. set_solver.
  - intros x X r _ IH.
    rewrite Z.lor_spec, orb_true_iff, IH, GamepadHotkey_value_testbit.
    set_solver.
Qed.

Lemma land_pow2_eqb v k :
  0 ≤ k → (Z.land v (2 ^ k) =? 0) = negb (Z.testbit v k).
Proof.
  intros Hk. destruct (Z.testbit v k) eqn:Hb; simpl.
  - apply Z.eqb_neq. intros H0.
    apply (f_equal (λ z, Z.testbit z k)) in H0.
    rewrite Z.land_spec, Hb, Z.pow2_bits_true, Z.bits_0 in H0 by done.
    done.
  - apply Z.eqb_eq, Z.bits_inj'. intros n Hn.
    rewrite Z.land_spec, Z.bits_0, Z.pow2_bits_eqb by done.
    destruct (Z.eqb_spec k n) as [->|]; [by rewrite Hb|].
    apply andb_false_r.
Qed.

(** [raised] tests the bit of the flag; no bit is tested for
    [HOTKEY_NONE]. *)
Lemma raised_testbit v h :
  raised v h = true ↔ ∃ k, bit h = Some k ∧ Z.testbit v k = true.
Proof.
  unfold raised. destruct (GamepadHotkey_value_bit h) as [-> Hk].
  destruct (bit h) as [j|]; simpl in *.
  - rewrite land_pow2_eqb, negb_involutive by lia. naive_solver.
  - rewrite Z.land_0_r. naive_solver.
Qed.

Lemma elem_of_actions v h : h ∈ actions v ↔ raised v h = true.
Proof.
  unfold actions. rewrite elem_of_list_to_set, list_elem_of_filter.
  pose proof (@elem_of_enum GamepadHotkey _ _ h). naive_solver.
Qed.

(** Reading a composed set back gives its actions. *)
Lemma actions_compose s : actions (compose s) = s ∖ {[HOTKEY_NONE]}.
Proof.
  apply set_eq. intros h.
  rewrite elem_of_actions, raised_testbit, elem_of_difference,
    not_elem_of_singleton, <- bit_None.
  split.
  - intros (k & Hk & Hb). apply compose_testbit in Hb as (h' & Hin & Hk').
    rewrite (bit_inj h h' k) by done. split; [done | congruence].
  - intros [Hin Hne]. destruct (bit h) as [k|] eqn:Hk; [|done].
    exists k. split; [done|]. apply compose_testbit. eauto.
Qed.

Lemma compose_nonneg s : 0 ≤ compose s.
Proof.
  unfold compose. apply (set_fold_ind_L (λ r _, 0 ≤ r)); [done|].
  intros x X r _ IH. apply Z.lor_nonneg. split; [done|].
  destruct (GamepadHotkey_value_bit x) as [-> _].
  destruct (bit x); simpl; lia.
Qed.

(** Composition of action sets is bitwise OR. *)
Lemma compose_union s1 s2 :
  compose (s1 ∪ s2) = Z.lor (compose s1) (compose s2).
Proof.
  apply Z.bits_inj'. intros k _. rewrite Z.lor_spec.
  apply eq_true_iff_eq.
  rewrite orb_true_iff, !compose_testbit. set_solver.
Qed.

Lemma compose_inj s1 s2 :
  HOTKEY_NONE ∉ s1 → HOTKEY_NONE ∉ s2 →
  compose s1 = compose s2 → s1 = s2.
Proof.
  intros H1 H2 Heq.
  assert (s1 ∖ {[HOTKEY_NONE]} = s2 ∖ {[HOTKEY_NONE]}) as Hd
    by (by rewrite <- !actions_compose, Heq).
  set_solver.
Qed.

(** C9: the ten nonzero GamepadHotkey constants are the pairwise distinct
    single-bit values 2^0 to 2^9; the bitwise OR of a set of them
    determines the set ([actions] reads it back, so composition is
    injective), composition of sets is OR of their values, and
    [HOTKEY_NONE], the constant 0, is the identity of the composition. *)
Theorem hotkey_flags_compose :
  length nonzero = 10%nat
  ∧ GamepadHotkey_value <$> nonzero = Z.pow 2 <$> seqZ 0 10
  ∧ NoDup (GamepadHotkey_value <$> nonzero)
  ∧ (∀ s, actions (compose s) = s ∖ {[HOTKEY_NONE]})
  ∧ (∀ s1 s2, HOTKEY_NONE ∉ s1 → HOTKEY_NONE ∉ s2 →
       compose s1 = compose s2 → s1 = s2)
  ∧ (∀ s1 s2, compose (s1 ∪ s2) = Z.lor (compose s1) (compose s2))
  ∧ GamepadHotkey_value HOTKEY_NONE = 0
  ∧ compose ∅ = GamepadHotkey_value HOTKEY_NONE
  ∧ compose {[HOTKEY_NONE]} = GamepadHotkey_value HOTKEY_NONE
  ∧ (∀ v, Z.lor v (GamepadHotkey_value HOTKEY_NONE) = v
          ∧ Z.lor (GamepadHotkey_value HOTKEY_NONE) v = v)
  ∧ (∀ s, compose ({[HOTKEY_NONE]} ∪ s) = compose s).
Proof.
  split_and!.
  - reflexivity.
  - reflexivity.
  - apply (bool_decide_unpack _). by vm_compute.
  - apply actions_compose.
  - apply compose_inj.
  - apply compose_union.
  - reflexivity.
  - apply set_fold_empty.
  - apply set_fold_singleton.
  - intros v. simpl. by rewrite Z.lor_0_r, Z.lor_0_l.
  - intros s. rewrite compose_union.
    replace (compose {[HOTKEY_NONE]}) with 0
      by (symmetry; apply set_fold_singleton).
    apply Z.lor_0_l.
Qed.

(** Two ways of writing one action set, composed and read back. *)
Lemma hotkey_flags_compose_witness :
  let s1 : gset GamepadHotkey :=
    {[HOTKEY_HOME_BUTTON]} ∪ {[HOTKEY_SOCD_NEUTRAL]} in
  let s2 : gset GamepadHotkey :=
    {[HOTKEY_SOCD_NEUTRAL]} ∪ {[HOTKEY_HOME_BUTTON]} in
  compose s1 = 72 ∧ compose s2 = 72 ∧ s1 = s2.
Proof.
  intros s1 s2.
  assert (H1 : compose s1 = 72).
  { subst s1. rewrite compose_union. unfold compose.
    rewrite !set_fold_singleton. reflexivity. }
  assert (H2 : compose s2 = 72).
  { subst s2. rewrite compose_union. unfold compose.
    rewrite !set_fold_singleton. reflexivity. }
  split; [exact H1|]. split; [exact H2|].
  destruct hotkey_flags_compose as (_ & _ & _ & _ & Hinj & _).
  apply Hinj.
  - subst s1. rewrite not_elem_of_union, !not_elem_of_singleton.
    split; discriminate.
  - subst s2. rewrite not_elem_of_union, !not_elem_of_singleton.
    split; discriminate.
  - exact (eq_trans H1 (eq_sym H2)).
Defined.

End hotkey.

(** ** Stored integers and the enumerators they denote *)

Lemma InputMode_of_value_value m :
  InputMode_of_value (InputMode_value m) = Some m.
Proof. by destruct m. Qed.

(** The integers from [0] up to [n], [n] excluded, are the members of
    [seqZ 0 n]; a value list equal to it has a preimage for each. *)
Lemma value_in_range {A : Type} (all : list A) (value : A → Z) (n v : Z) :
  value <$> all = seqZ 0 n → 0 ≤ v < n → ∃ e, value e = v.
Proof.
  intros Hall Hv. assert (v ∈ value <$> all) as Hin.
  { rewrite Hall. apply elem_of_seqZ. lia. }
  apply list_elem_of_fmap in Hin as (e & -> & _). by exists e.
Qed.

(** X1: the input modes are the constants 0, 1, 2 and 255 of the C
    numbering rule; a stored integer denotes an input mode exactly when it
    is that mode's constant, which holds for 0, 1, 2 and 255 only, and every
    constant fits a byte. *)
Theorem InputMode_stored_values :
  numbered_by InputMode_decl InputMode_value
  ∧ (∀ v m, InputMode_of_value v = Some m ↔ InputMode_value m = v)
  ∧ (∀ v, is_Some (InputMode_of_value v) ↔ 0 ≤ v ≤ 2 ∨ v = 255)
  ∧ (∀ m, 0 ≤ InputMode_value m < 2 ^ 8).
Proof.
  split_and!.
  - reflexivity.
  - intros v m. split; [apply of_value_Some|].
    intros <-. apply InputMode_of_value_value.
  - intros v. split.
    + intros [m Hm]. apply of_value_Some in Hm. destruct m; simpl in Hm; lia.
    + intros [Hv| ->]; [|by eexists].
      assert (v = 0 ∨ v = 1 ∨ v = 2) as [->|[->| ->]] by lia; by eexists.
  - intros []; simpl; lia.
Qed.

(** X2: a stored integer denotes a dpad mode exactly when it is that mode's
    constant, and the integers that denote one are exactly 0, 1 and 2. *)
Theorem DpadMode_stored_values :
  numbered_by (CEnum.plain DpadMode_all) DpadMode_value
  ∧ (∀ v m, DpadMode_of_value v = Some m ↔ DpadMode_value m = v)
  ∧ (∀ v, is_Some (DpadMode_of_value v) ↔ 0 ≤ v < 3).
Proof.
  split_and!.
  - reflexivity.
  - intros v m. split; [apply of_value_Some|].
    intros <-. apply DpadMode_of_value_value.
  - intros v. split.
    + intros [m Hm]. apply of_value_Some in Hm. destruct m; simpl in Hm; lia.
    + intros Hv.
      destruct (value_in_range DpadMode_all DpadMode_value 3 v) as [m <-];
        [reflexivity | done |].
      rewrite DpadMode_of_value_value. by eexists.
Qed.

(** X3: a stored integer denotes a SOCD cleaning method exactly when it is
    that method's constant, and the integers that denote one are exactly
    those from 0 to 27: the enumeration has no gap. *)
Theorem SOCDMode_stored_values :
  (∀ v m, SOCDMode_of_value v = Some m ↔ SOCDMode_value m = v)
  ∧ (∀ v, is_Some (SOCDMode_of_value v) ↔ 0 ≤ v < 28)
  ∧ (∀ m1 m2, SOCDMode_value m1 = SOCDMode_value m2 ↔ m1 = m2).
Proof.
  split_and!.
  - intros v m. split; [apply of_value_Some|].
    intros <-. apply SOCDMode_of_value_value.
  - intros v. split.
    + intros [m Hm]. apply of_value_Some in Hm. destruct m; simpl in Hm; lia.
    + intros Hv.
      destruct (value_in_range SOCDMode_all SOCDMode_value 28 v) as [m <-];
        [reflexivity | done |].
      rewrite SOCDMode_of_value_value. by eexists.
  - intros m1 m2. split; [|by intros ->].
    intros Heq. pose proof (SOCDMode_of_value_value m1) as H1.
    rewrite Heq, SOCDMode_of_value_value in H1. congruence.
Qed.

(** ** The layout of the comprehensive block *)

Lemma x_position_range p : 0 ≤ x_position p < 5.
Proof. destruct p; simpl; lia. Qed.

Lemma y_position_range p : 0 ≤ y_position p < 5.
Proof. destruct p; simpl; lia. Qed.

(** X4: the comprehensive enumerators are laid out row by row after the
    three legacy ones: the constant of [SOCD_MODE_X_<x>_Y_<y>] is
    3 + 5 * (place of x) + (place of y), so the places of its policies are
    the quotient and the remainder of its offset by 5, and the legacy
    constants lie below the block. *)
Theorem comprehensive_layout :
  comprehensive_base = 3
  ∧ (∀ p : AxisPolicy * AxisPolicy,
       SOCDMode_value (SOCDMode_of_policy p)
       = comprehensive_base + 5 * x_position p.1 + y_position p.2)
  ∧ (∀ p : AxisPolicy * AxisPolicy,
       (SOCDMode_value (SOCDMode_of_policy p) - comprehensive_base) `div` 5
       = x_position p.1
       ∧ (SOCDMode_value (SOCDMode_of_policy p) - comprehensive_base) `mod` 5
         = y_position p.2)
  ∧ (∀ m : SOCDMode,
       is_legacy m = bool_decide (SOCDMode_value m < comprehensive_base)).
Proof.
  assert (∀ p : AxisPolicy * AxisPolicy,
            SOCDMode_value (SOCDMode_of_policy p)
            = comprehensive_base + 5 * x_position p.1 + y_position p.2) as Hl
    by (by intros [[] []]).
  split_and!.
  - reflexivity.
  - exact Hl.
  - intros p. rewrite Hl.
    pose proof (y_position_range p.2) as Hy.
    replace (comprehensive_base + 5 * x_position p.1 + y_position p.2
             - comprehensive_base)
      with (y_position p.2 + x_position p.1 * 5) by lia.
    rewrite Z.div_add, Z.mod_add, Z.div_small, Z.mod_small by lia. lia.
  - by intros [].
Qed.


(** ** Flag sets and bit operations *)

Section hotkey_algebra.
Import Hotkey.

Implicit Types (h : GamepadHotkey) (s : gset GamepadHotkey) (v w k : Z).

(** The flag test reads the bit of the flag. *)
Lemma raised_bit v h : raised v h = from_option (Z.testbit v) false (bit h).
Proof.
  unfold raised. destruct (GamepadHotkey_value_bit h) as [-> Hk].
  destruct (bit h) as [j|]; simpl in *.
  - rewrite land_pow2_eqb by lia. apply negb_involutive.
  - by rewrite Z.land_0_r.
Qed.

Lemma compose_testbit_high s k : 10 ≤ k → Z.testbit (compose s) k = false.
Proof.
  intros Hk. apply not_true_is_false. rewrite compose_testbit.
  intros (h & _ & Hb). destruct (GamepadHotkey_value_bit h) as [_ Hr].
  rewrite Hb in Hr. simpl in Hr. lia.
Qed.

(** X5: whatever the action set, its composed flags are a 10-bit value: at
    least 0 and below 2^10 = 1024. *)
Theorem compose_range s : 0 ≤ compose s < 2 ^ 10.
Proof.
  split; [apply compose_nonneg|].
  assert (compose s = Z.land (compose s) (Z.ones 10)) as ->.
  { apply Z.bits_inj'. intros k Hk. rewrite Z.land_spec.
    destruct (Z.lt_ge_cases k 10).
    - rewrite Z.ones_spec_low by lia. by rewrite andb_true_r.
    - rewrite Z.ones_spec_high, compose_testbit_high by lia. done. }
  rewrite Z.land_ones by lia. apply Z.mod_pos_bound. lia.
Qed.

(** X6: the bit operations on composed flags are the set operations on the
    action sets: [&] is intersection, [& ~] is difference, and an action
    set (without [HOTKEY_NONE]) is contained in another exactly when
    masking its flags with the other's leaves them unchanged. *)
Theorem compose_set_algebra :
  (∀ s1 s2, compose (s1 ∩ s2) = Z.land (compose s1) (compose s2))
  ∧ (∀ s1 s2, compose (s1 ∖ s2) = Z.ldiff (compose s1) (compose s2))
  ∧ (∀ s1 s2,
       s1 ∖ {[HOTKEY_NONE]} ⊆ s2
       ↔ Z.land (compose s1) (compose s2) = compose s1).
Proof.
  assert (∀ s1 s2, compose (s1 ∩ s2) = Z.land (compose s1) (compose s2))
    as Hinter.
  { intros s1 s2. apply Z.bits_inj'. intros k _. rewrite Z.land_spec.
    apply eq_true_iff_eq. rewrite andb_true_iff, !compose_testbit. split.
    - intros (h & Hin & Hb). apply elem_of_intersection in Hin as [??].
      split; by exists h.
    - intros [(h1 & Hin1 & Hb1) (h2 & Hin2 & Hb2)].
      rewrite (bit_inj h2 h1 k) in Hin2 by done.
      exists h1. by rewrite elem_of_intersection. }
  split_and!.
  - exact Hinter.
  - intros s1 s2. apply Z.bits_inj'. intros k Hk.
    rewrite Z.ldiff_spec by done. apply eq_true_iff_eq.
    rewrite andb_true_iff, negb_true_iff, <- not_true_iff_false,
      !compose_testbit.
    split.
    + intros (h & Hin & Hb). apply elem_of_difference in Hin as [Hin Hnot].
      split; [by exists h|]. intros (h' & Hin' & Hb').
      by rewrite (bit_inj h' h k) in Hin'.
    + intros [(h & Hin & Hb) Hnot]. exists h. split; [|done].
      apply elem_of_difference. split; [done|]. intros Hin2.
      apply Hnot. by exists h.
  - intros s1 s2. rewrite <- Hinter. split.
    + intros Hsub. apply Z.bits_inj'. intros k _. apply eq_true_iff_eq.
      rewrite !compose_testbit. split.
      * intros (h & Hin & Hb). exists h. set_solver.
      * intros (h & Hin & Hb). exists h. split; [|done].
        apply elem_of_intersection. split; [done|]. apply Hsub.
        apply elem_of_difference. split; [done|].
        rewrite not_elem_of_singleton. intros ->. discriminate.
    + intros Heq h Hin. apply elem_of_difference in Hin as [Hin Hne].
      assert (h ∈ actions (compose s1)) as Ha.
      { rewrite actions_compose. by apply elem_of_difference. }
      rewrite <- Heq, actions_compose in Ha. set_solver.
Qed.

Lemma raised_value h h' :
  raised (GamepadHotkey_value h) h' = bool_decide (h = h' ∧ h ≠ HOTKEY_NONE).
Proof. by destruct h, h'. Qed.

(** X7: raising a flag with [|] makes its test succeed and clearing it with
    [& ~] makes its test fail, on any stored value; either operation leaves
    the test of every other flag as it was, and the test of [HOTKEY_NONE]
    never succeeds. *)
Theorem flag_raise_clear_test :
  (∀ v h h',
     raised (Z.lor v (GamepadHotkey_value h)) h'
     = raised v h' || bool_decide (h = h' ∧ h ≠ HOTKEY_NONE))
  ∧ (∀ v h h',
       raised (Z.ldiff v (GamepadHotkey_value h)) h'
       = raised v h' && negb (bool_decide (h = h')))
  ∧ (∀ v, raised v HOTKEY_NONE = false).
Proof.
  split_and!.
  - intros v h h'. rewrite <- raised_value, !raised_bit.
    destruct (bit h') as [k|]; simpl; [|done]. apply Z.lor_spec.
  - intros v h h'. rewrite !raised_bit.
    destruct (bit h') as [k|] eqn:Hk; simpl; [|done].
    destruct (GamepadHotkey_value_bit h') as [_ Hr]. rewrite Hk in Hr.
    simpl in Hr. rewrite Z.ldiff_spec by lia. f_equal. f_equal.
    pose proof (raised_value h h') as Hv. rewrite raised_bit, Hk in Hv.
    simpl in Hv. rewrite Hv. apply bool_decide_ext.
    split; [by intros [??]|]. intros ->. split; [done|].
    intros ->. discriminate.
  - intros v. by rewrite raised_bit.
Qed.

End hotkey_algebra.
